(** * Group availability calendar: availability model, month grid and
      remote synchronisation, embedded from the TypeScript sources.

    Two source files are covered: the Supabase-backed component
    (src/unnamed/part_000) at top level, and the localStorage-only starter
    (src/src/App.tsx) in [Module App].

    Modelling conventions.
    - A JavaScript object used as a dictionary ([Record<string, ...>]) is a
      finite map of its own properties ([gmap string _]); properties
      inherited from [Object.prototype] are outside the model.
    - A [Date] is represented by the calendar day it denotes in local time,
      counted in days from 1 January 1970.  The source only ever reads
      [getFullYear], [getMonth], [getDate] and [getDay] and only builds dates
      with [new Date(y, m, d)], all of which are functions of that day.  The
      numbers are unbounded integers: the platform's limit of 10^8 days on
      either side of 1970 and the invalid date are not represented.
    - The remote store is an opaque collaborator: an asynchronous handler is
      a tree of requests, run against an arbitrary environment that answers
      every request. *)

From stdpp Require Import gmap strings list fin_maps pretty.
From Stdlib Require Import ZArith Lia.

Open Scope Z_scope.

(** ** The platform's calendar arithmetic (ECMA-262, "Time Values and Time
       Range", "Year Number", "Month Number", "Date Number", "Week Day",
       "MakeDay" and the [Date] constructor). *)

Module JsDate.

Record Date : Type := MkDate { localDay : Z }.

Definition InLeapYear (y : Z) : bool :=
  ((y mod 4 =? 0) && negb (y mod 100 =? 0)) || (y mod 400 =? 0).

Definition DaysInYear (y : Z) : Z := if InLeapYear y then 366 else 365.

Definition DayFromYear (y : Z) : Z :=
  365 * (y - 1970) + (y - 1969) / 4 - (y - 1901) / 100 + (y - 1601) / 400.

(** "The largest integer y such that DayFromYear(y) <= d": a first guess
    from the mean year length, moved by at most one year. *)
Definition YearFromDay (d : Z) : Z :=
  let y := 1970 + (d * 400) / 146097 in
  if d <? DayFromYear y then y - 1
  else if DayFromYear (y + 1) <=? d then y + 1
  else y.

Definition DayWithinYear (d : Z) : Z := d - DayFromYear (YearFromDay d).

(** Number of days of the year that precede month [m] (0 = January). *)
Definition monthStart (leap : bool) (m : Z) : Z :=
  let l := if leap then 1 else 0 in
  if m <=? 0 then 0
  else if m =? 1 then 31
  else if m =? 2 then 59 + l
  else if m =? 3 then 90 + l
  else if m =? 4 then 120 + l
  else if m =? 5 then 151 + l
  else if m =? 6 then 181 + l
  else if m =? 7 then 212 + l
  else if m =? 8 then 243 + l
  else if m =? 9 then 273 + l
  else if m =? 10 then 304 + l
  else 334 + l.

Definition MonthFromDay (d : Z) : Z :=
  let w := DayWithinYear d in
  let l := if InLeapYear (YearFromDay d) then 1 else 0 in
  if w <? 31 then 0
  else if w <? 59 + l then 1
  else if w <? 90 + l then 2
  else if w <? 120 + l then 3
  else if w <? 151 + l then 4
  else if w <? 181 + l then 5
  else if w <? 212 + l then 6
  else if w <? 243 + l then 7
  else if w <? 273 + l then 8
  else if w <? 304 + l then 9
  else if w <? 334 + l then 10
  else 11.

Definition DateFromDay (d : Z) : Z :=
  DayWithinYear d - monthStart (InLeapYear (YearFromDay d)) (MonthFromDay d) + 1.

Definition WeekDay (d : Z) : Z := (d + 4) mod 7.

(** MakeDay: the day number of the first of month [month mod 12] in year
    [year + floor(month / 12)], plus [date - 1]. *)
Definition MakeDay (year month date : Z) : Z :=
  let ym := year + month / 12 in
  let mn := month mod 12 in
  DayFromYear ym + monthStart (InLeapYear ym) mn + date - 1.

(** The constructor reads a year argument from 0 to 99 as 1900 + year. *)
Definition twoDigitYear (y : Z) : bool := (0 <=? y) && (y <=? 99).

Definition newDate (y m d : Z) : Date :=
  let yr := if twoDigitYear y then 1900 + y else y in
  MkDate (MakeDay yr m d).

Definition getFullYear (d : Date) : Z := YearFromDay (localDay d).
Definition getMonth (d : Date) : Z := MonthFromDay (localDay d).
Definition getDate (d : Date) : Z := DateFromDay (localDay d).
Definition getDay (d : Date) : Z := WeekDay (localDay d).

End JsDate.

Import JsDate.

(** ** Utilities (part_000, lines 18-31) *)

(** [String(n)] for an integer [n]. *)
Definition String_of_number (n : Z) : string := pretty n.

(** [s.padStart(2, "0")]. *)
Definition padStart2 (s : string) : string :=
  match s with
  | EmptyString => "00"
  | String _ EmptyString => "0" +:+ s
  | _ => s
  end.

Definition pad2 (n : Z) : string := padStart2 (String_of_number n).

Definition isoDate (d : Date) : string :=
  String_of_number (getFullYear d) +:+ "-" +:+ pad2 (getMonth d + 1)
    +:+ "-" +:+ pad2 (getDate d).

Definition startOfMonth (d : Date) : Date := newDate (getFullYear d) (getMonth d) 1.
Definition endOfMonth (d : Date) : Date := newDate (getFullYear d) (getMonth d + 1) 0.
Definition addDays (d : Date) (n : Z) : Date :=
  newDate (getFullYear d) (getMonth d) (getDate d + n).
Definition sameDay (a b : Date) : bool :=
  (getFullYear a =? getFullYear b) && (getMonth a =? getMonth b)
    && (getDate a =? getDate b).

(** 0 = Monday .. 6 = Sunday, from the platform's 0 = Sunday .. 6 = Saturday. *)
Definition mondayFirstDow (d : Date) : Z :=
  let js := getDay d in
  (js + 6) mod 7.

(** ** Availability model (part_000, lines 52-77) *)

Module Person.
Record t : Type := Mk { id : string; name : string; color : string }.
End Person.

(** [availability[personId][YYYY-MM-DD] = true|false]; missing = available. *)
Abbreviation Availability := (gmap string (gmap string bool)).

Inductive Status : Type := available | unavailable.

Definition Status_eqb (a b : Status) : bool :=
  match a, b with
  | available, available | unavailable, unavailable => true
  | _, _ => false
  end.

Definition getStatusFromAvailability
    (availability : Availability) (personId dateStr : string) : Status :=
  match availability !! personId with
  | None => available                      (* !per *)
  | Some per =>
      match (per : gmap string bool) !! dateStr with
      | None => available                  (* !(dateStr in per) *)
      | Some true => available             (* per[dateStr] === true *)
      | Some false => unavailable
      end
  end.

Definition setStatusInAvailability
    (availability : Availability) (personId dateStr : string)
    (nextStatus : Status) : Availability :=
  let next := availability in
  let per := default ∅ (next !! personId) in
  let per := <[dateStr := Status_eqb nextStatus available]> per in
  <[personId := per]> next.

(** ** The localStorage-only starter (src/src/App.tsx, lines 73-89) *)

Module App.

Definition getStatusFromAvailability
    (availability : Availability) (personId dateStr : string) : Status :=
  match availability !! personId with
  | None => available
  | Some per =>
      match (per : gmap string bool) !! dateStr with
      | None => available
      | Some true => available
      | Some false => unavailable
      end
  end.

Definition setStatusInAvailability
    (availability : Availability) (personId dateStr : string)
    (nextStatus : Status) : Availability :=
  let next := availability in
  let per := default ∅ (next !! personId) in
  let per := <[dateStr := Status_eqb nextStatus available]> per in
  <[personId := per]> next.

End App.

(** ** Component state (part_000, lines 196-207) *)

Inductive ShowMode : Type := all | none | onlyUnavailable.

Record State : Type := MkState {
  today : Date;
  cursor : Date;
  people : list Person.t;
  selectedIds : gset string;
  availability : Availability;
  currentUserId : string;
  showMode : ShowMode
}.

(** ** The month grid (part_000, lines 273-290) *)

Record Cell : Type := MkCell { date : Date; inMonth : bool; isToday : bool }.

Record MonthDays : Type := MkMonthDays {
  start : Date;
  end_ : Date;
  cells : list Cell
}.

Definition monthDays (cursor today : Date) : MonthDays :=
  let start := startOfMonth cursor in
  let end_ := endOfMonth cursor in
  let firstCell := addDays start (- mondayFirstDow start) in
  let cells :=
    (fun i : Z =>
       let d := addDays firstCell i in
       {| date := d;
          inMonth := getMonth d =? getMonth cursor;
          isToday := sameDay d today |}) <$> seqZ 0 42 in
  {| start := start; end_ := end_; cells := cells |}.

(** The [firstCell] constant of [monthDays], by itself. *)
Definition firstCell (cursor : Date) : Date :=
  let start := startOfMonth cursor in
  addDays start (- mondayFirstDow start).

Definition getStatus (s : State) (personId dateStr : string) : Status :=
  getStatusFromAvailability (availability s) personId dateStr.

(** ** Remote store interface (part_000, lines 299-316 and 373-377) *)

(** A row of the [availability] table as the client reads and writes it.
    [String(row.person_id)], [String(row.day)] and [Boolean(row.available)]
    are identities on fields of these types. *)
Module DbRow.
Record t : Type := Mk { person_id : string; day : string; available : bool }.
End DbRow.

(** The [{ data, error }] pair a query resolves to. *)
Record Reply : Type := MkReply {
  data : option (list DbRow.t);
  error : option string
}.

(** ** Asynchronous handlers as request trees *)

(** [SetAvailability f] is [setAvailability(prev => f(prev))]; [Upsert] and
    [SelectRange] are the two awaited requests, each continuing with what
    the request resolves to (the client library reports a failure in the
    [error] field of the reply). *)

Inductive Action (A : Type) : Type :=
| Return (a : A)
| SetAvailability (f : Availability -> Availability) (k : Action A)
| ConsoleError (msg : string) (k : Action A)
| Upsert (r : DbRow.t) (k : option string -> Action A)
| SelectRange (lo hi : string) (k : Reply -> Action A).

Arguments Return {A} a.
Arguments SetAvailability {A} f k.
Arguments ConsoleError {A} msg k.
Arguments Upsert {A} r k.
Arguments SelectRange {A} lo hi k.

Fixpoint bind {A B : Type} (m : Action A) (f : A -> Action B) : Action B :=
  match m with
  | Return a => f a
  | SetAvailability g k => SetAvailability g (bind k f)
  | ConsoleError msg k => ConsoleError msg (bind k f)
  | Upsert r k => Upsert r (fun e => bind (k e) f)
  | SelectRange lo hi k => SelectRange lo hi (fun r => bind (k r) f)
  end.

#[global] Instance Action_ret : MRet Action := @Return.
#[global] Instance Action_bind : MBind Action := fun A B f m => bind m f.

Definition setAvailability (f : Availability -> Availability) : Action unit :=
  SetAvailability f (Return tt).
Definition consoleError (msg : string) : Action unit :=
  ConsoleError msg (Return tt).
Definition upsert (r : DbRow.t) : Action (option string) :=
  Upsert r Return.
Definition selectRange (lo hi : string) : Action Reply :=
  SelectRange lo hi Return.

(** What a run of a handler does, in order. *)
Inductive Event : Type :=
| EvSetAvailability (next : Availability)
| EvConsoleError (msg : string)
| EvUpsert (r : DbRow.t)
| EvSelectRange (lo hi : string).

(** The environment answers each request from the history so far, and may
    change the in-memory mapping while the handler is suspended at an
    [await] (push patches and other refreshes completing in between). *)
Record Env : Type := MkEnv {
  upsertReply : list Event -> DbRow.t -> option string;
  selectReply : list Event -> string -> string -> Reply;
  whileSuspended : list Event -> Availability -> Availability
}.

Record Outcome (A : Type) : Type := MkOutcome {
  final : Availability;
  trace : list Event;
  result : A
}.

Arguments MkOutcome {A} final trace result.
Arguments final {A} o.
Arguments trace {A} o.
Arguments result {A} o.

Fixpoint exec {A : Type} (env : Env) (m : Action A)
    (hist : list Event) (a : Availability) : Outcome A :=
  match m with
  | Return x => MkOutcome a hist x
  | SetAvailability f k =>
      let a' := f a in exec env k (hist ++ [EvSetAvailability a']) a'
  | ConsoleError msg k => exec env k (hist ++ [EvConsoleError msg]) a
  | Upsert r k =>
      let hist' := hist ++ [EvUpsert r] in
      exec env (k (upsertReply env hist r)) hist' (whileSuspended env hist' a)
  | SelectRange lo hi k =>
      let hist' := hist ++ [EvSelectRange lo hi] in
      exec env (k (selectReply env hist lo hi)) hist' (whileSuspended env hist' a)
  end.

Definition run {A : Type} (env : Env) (m : Action A) (a : Availability) : Outcome A :=
  exec env m [] a.

(** ** Remote sync controller (part_000, lines 292-319 and 367-399) *)

(** The loop of lines 310-316 that builds [next] from the returned rows. *)
Definition availabilityOfRows (rows : list DbRow.t) : Availability :=
  foldl
    (fun (next : Availability) row =>
       let pid := DbRow.person_id row in
       let dayStr := DbRow.day row in
       let next :=
         match next !! pid with
         | None => <[pid := ∅]> next
         | Some _ => next
         end in
       alter (fun per => <[dayStr := DbRow.available row]> per) pid next)
    ∅ rows.

Definition refreshAvailability (s : State) : Action unit :=
  let cells := cells (monthDays (cursor s) (today s)) in
  match cells with
  | [] => mret tt                                   (* !cells.length *)
  | c0 :: _ =>
      let startISO := isoDate (date c0) in
      let endISO := isoDate (date (default c0 (last cells))) in
      r ← selectRange startISO endISO;
      match error r with
      | Some _ => consoleError "Failed to load availability"
      | None =>
          let next := availabilityOfRows (default [] (data r)) in
          setAvailability (fun _ => next)
      end
  end.

Definition setStatus (s : State) (personId dateStr : string)
    (nextStatus : Status) : Action unit :=
  setAvailability
    (fun prev => setStatusInAvailability prev personId dateStr nextStatus);;
  error ← upsert {| DbRow.person_id := personId;
                    DbRow.day := dateStr;
                    DbRow.available := Status_eqb nextStatus available |};
  match error with
  | Some _ =>
      consoleError "Failed to save availability";;
      refreshAvailability s;;
      mret tt
  | None => refreshAvailability s
  end.

Definition onDayClick (s : State) (dateObj : Date) : Action unit :=
  if String.eqb (currentUserId s) "" then mret tt
  else
    let dStr := isoDate dateObj in
    let cur := getStatus s (currentUserId s) dStr in
    let next := if Status_eqb cur available then unavailable else available in
    setStatus s (currentUserId s) dStr next.

(** ** The "Unavailable" show button (part_000, lines 479-496) *)

(** Inner loop: scan the cells in order, stop at the first unavailable day. *)
Fixpoint anyUnavailable (s : State) (personId : string) (cs : list Cell) : bool :=
  match cs with
  | [] => false
  | cell :: rest =>
      let dStr := isoDate (date cell) in
      if Status_eqb (getStatus s personId dStr) unavailable then true
      else anyUnavailable s personId rest
  end.

Definition idsWithUnavailable (s : State) : gset string :=
  foldl
    (fun (ids : gset string) p =>
       if anyUnavailable s (Person.id p) (cells (monthDays (cursor s) (today s)))
       then ids ∪ {[Person.id p]} else ids)
    ∅ (people s).

Definition onlyUnavailableClick (s : State) : State :=
  {| today := today s; cursor := cursor s; people := people s;
     selectedIds := idsWithUnavailable s;
     availability := availability s;
     currentUserId := currentUserId s;
     showMode := onlyUnavailable |}.

(** ** Specification vocabulary *)






(** ** Demo data used by the worked instances *)

Definition demoToday : Date := newDate 2026 10 1.
Definition demoCursor : Date := newDate 2026 1 1.
Definition personA : Person.t :=
  {| Person.id := "A"; Person.name := "Alice"; Person.color := "#1a73e8" |}.
Definition personB : Person.t :=
  {| Person.id := "B"; Person.name := "Ben"; Person.color := "#34a853" |}.
Definition demoAvailability : Availability :=
  setStatusInAvailability ∅ "A" "2026-02-10" unavailable.
Definition demoState : State :=
  {| today := demoToday; cursor := demoCursor;
     people := [personA; personB];
     selectedIds := ∅;
     availability := demoAvailability;
     currentUserId := "A";
     showMode := all |}.

(** ** Further parts of the component (part_000) *)


Definition goToday (now : Date) : Date := startOfMonth now.

(** The updater of [toggleSelect] (lines 358-365). *)
Definition toggleSelect (personId : string) (prev : gset string) : gset string :=
  let next := prev in
  if decide (personId ∈ next) then next ∖ {[personId]}
  else next ∪ {[personId]}.

(** [selectedPeople] (line 269). *)
Definition selectedPeople (s : State) : list Person.t :=
  List.filter (fun p => bool_decide (Person.id p ∈ selectedIds s)) (people s).

(** The "All" and "None" show buttons (lines 471-474 and 504-507). *)
Definition allClick (s : State) : State :=
  {| today := today s; cursor := cursor s; people := people s;
     selectedIds := list_to_set (Person.id <$> people s);
     availability := availability s;
     currentUserId := currentUserId s;
     showMode := all |}.

Definition noneClick (s : State) : State :=
  {| today := today s; cursor := cursor s; people := people s;
     selectedIds := ∅;
     availability := availability s;
     currentUserId := currentUserId s;
     showMode := none |}.

(** The people drawn in the cell of day [dStr] (lines 606-618). *)
Definition peopleToRender (s : State) (dStr : string) : list Person.t :=
  match showMode s with
  | none => []
  | all => selectedPeople s
  | onlyUnavailable =>
      List.filter
        (fun p => Status_eqb (getStatus s (Person.id p) dStr) unavailable)
        (selectedPeople s)
  end.



(** ** Push subscription (part_000, lines 331-342) *)

(** The values a field of the untyped [payload.new] can hold; [JUndefined]
    is a missing field, numbers are integers. *)
Inductive JsVal : Type :=
| JUndefined
| JNull
| JBool (b : bool)
| JNum (n : Z)
| JStr (s : string).



Module Payload.
Record t : Type := Mk { person_id : JsVal; day : JsVal; available : JsVal }.
End Payload.


(** ** Password gate (part_000, lines 34 and 105-145) *)

Definition LS_KEY : string := "group-availability.v1".
Definition APP_PASSWORD : string := "changeme".
Definition UNLOCK_KEY : string := LS_KEY +:+ ".unlocked".

(** [localStorage]: its items, and whether it works, refuses writes (quota)
    or refuses every access. *)
Inductive StorageMode : Type := Working | QuotaExceeded | Denied.

Record Storage : Type := MkStorage {
  items : gmap string string;
  mode : StorageMode
}.

(** Each call returns [None] when it throws. *)
Definition getItem (k : string) (st : Storage) : option (option string) :=
  match mode st with
  | Denied => None
  | Working | QuotaExceeded => Some (items st !! k)
  end.

Definition setItem (k v : string) (st : Storage) : option Storage :=
  match mode st with
  | Working => Some {| items := <[k := v]> (items st); mode := mode st |}
  | QuotaExceeded | Denied => None
  end.

Definition removeItem (k : string) (st : Storage) : option Storage :=
  match mode st with
  | Denied => None
  | Working | QuotaExceeded =>
      Some {| items := delete k (items st); mode := mode st |}
  end.

Record Gate : Type := MkGate {
  pw : string;
  gateError : option string;
  unlocked : bool
}.

(** The initial state of the gate on mount. *)
Definition gateInit (st : Storage) : Gate :=
  {| pw := "";
     gateError := None;
     unlocked :=
       match getItem UNLOCK_KEY st with
       | Some (Some v) => String.eqb v "1"
       | Some None => false
       | None => false                              (* catch *)
       end |}.

Definition submit (g : Gate) (st : Storage) : Gate * Storage :=
  if String.eqb (pw g) APP_PASSWORD then
    ({| pw := pw g; gateError := None; unlocked := true |},
     default st (setItem UNLOCK_KEY "1" st))
  else
    ({| pw := pw g; gateError := Some "Incorrect password";
        unlocked := unlocked g |}, st).

Definition lock (g : Gate) (st : Storage) : Gate * Storage :=
  ({| pw := ""; gateError := None; unlocked := false |},
   default st (removeItem UNLOCK_KEY st)).

(** ** Handlers of the localStorage-only starter (src/src/App.tsx,
       lines 282-293) *)

Module AppHandlers.

(** The updater of [setStatus]. *)
Definition setStatus (personId dateStr : string) (nextStatus : Status)
    (prev : Availability) : Availability :=
  App.setStatusInAvailability prev personId dateStr nextStatus.

(** [onDayClick] as a step on the mapping, for the rendered
    [availability] and [currentUserId]. *)
Definition onDayClick (availability : Availability) (currentUserId : string)
    (dateObj : Date) : Availability :=
  let dStr := isoDate dateObj in
  let cur := App.getStatusFromAvailability availability currentUserId dStr in
  let next := if Status_eqb cur available then unavailable else available in
  setStatus currentUserId dStr next availability.

End AppHandlers.

(** An environment in which every request fails. *)
Definition failingEnv : Env :=
  {| upsertReply := fun _ _ => Some "offline"%string;
     selectReply := fun _ _ _ => {| data := None; error := Some "offline"%string |};
     whileSuspended := fun _ a => a |}.



(** * Verification *)

(** ** Calendar arithmetic *)

Ltac zdiv := Z.div_mod_to_equations; lia.

(** Case split on every [a <? b] (resp. [a <=? b], [a =? b]) test of the goal. *)
Ltac split_tests :=
  repeat match goal with
    | |- context [if ?a <? ?b then _ else _] => destruct (Z.ltb_spec a b)
    | |- context [if ?a <=? ?b then _ else _] => destruct (Z.leb_spec a b)
    | |- context [if ?a =? ?b then _ else _] => destruct (Z.eqb_spec a b)
    end.

(** Evaluate [monthStart] at a literal month. *)
Ltac eval_monthStart :=
  repeat match goal with
    | |- context [monthStart ?l ?k] =>
        let v := eval vm_compute in (monthStart l k) in
        change (monthStart l k) with v
    end.

Lemma DayFromYear_step (y : Z) :
  DayFromYear (y + 1) = DayFromYear y + DaysInYear y.
Proof.
  unfold DaysInYear, InLeapYear, DayFromYear.
  destruct (Z.eqb_spec (y mod 4) 0), (Z.eqb_spec (y mod 100) 0),
    (Z.eqb_spec (y mod 400) 0); cbn [andb orb negb]; zdiv.
Qed.

Lemma DaysInYear_cases (y : Z) :
  DaysInYear y = 365 + (if InLeapYear y then 1 else 0).
Proof. unfold DaysInYear. destruct (InLeapYear y); reflexivity. Qed.

Lemma DayFromYear_lt (y y' : Z) : y < y' -> DayFromYear y < DayFromYear y'.
Proof. unfold DayFromYear. intros H. zdiv. Qed.

Lemma YearFromDay_spec (d : Z) :
  DayFromYear (YearFromDay d) <= d < DayFromYear (YearFromDay d + 1).
Proof.
  unfold YearFromDay. cbv zeta.
  destruct (Z.ltb_spec d (DayFromYear (1970 + d * 400 / 146097))) as [Hlo|Hlo].
  - unfold DayFromYear in *. zdiv.
  - destruct (Z.leb_spec (DayFromYear (1970 + d * 400 / 146097 + 1)) d) as [Hhi|Hhi].
    + unfold DayFromYear in *. zdiv.
    + lia.
Qed.

(** [YearFromDay d] is the only year whose days include [d]. *)
Lemma YearFromDay_unique (d y : Z) :
  DayFromYear y <= d < DayFromYear (y + 1) -> YearFromDay d = y.
Proof.
  intros Hy. pose proof (YearFromDay_spec d) as Hs.
  destruct (Z.lt_trichotomy (YearFromDay d) y) as [Hlt|[Heq|Hgt]]; [|exact Heq|].
  - assert (DayFromYear (YearFromDay d + 1) <= DayFromYear y).
    { destruct (Z.eq_dec (YearFromDay d + 1) y) as [->|Hne]; [lia|].
      apply Z.lt_le_incl, DayFromYear_lt. lia. }
    lia.
  - assert (DayFromYear (y + 1) <= DayFromYear (YearFromDay d)).
    { destruct (Z.eq_dec (y + 1) (YearFromDay d)) as [<-|Hne]; [lia|].
      apply Z.lt_le_incl, DayFromYear_lt. lia. }
    lia.
Qed.


Lemma MonthFromDay_range (d : Z) : 0 <= MonthFromDay d <= 11.
Proof. unfold MonthFromDay. cbv zeta. split_tests; lia. Qed.

Lemma monthStart_range (leap : bool) (m : Z) :
  0 <= m <= 11 -> 0 <= monthStart leap m <= 335.
Proof. intros Hm. unfold monthStart. destruct leap; split_tests; lia. Qed.

(** Year, month and date determine the day: [MakeDay] inverts the getters. *)
Lemma MakeDay_getters (d n : Z) :
  MakeDay (YearFromDay d) (MonthFromDay d) (DateFromDay d + n) = d + n.
Proof.
  pose proof (MonthFromDay_range d) as Hm.
  unfold MakeDay. cbv zeta.
  rewrite (Z.div_small (MonthFromDay d) 12), (Z.mod_small (MonthFromDay d) 12) by lia.
  rewrite Z.add_0_r. unfold DateFromDay, DayWithinYear. lia.
Qed.

Lemma MakeDay_add (y m d n : Z) : MakeDay y m (d + n) = MakeDay y m d + n.
Proof. unfold MakeDay. lia. Qed.

(** The first of month [m] of year [y] reads back as year [y], month [m],
    date 1. *)
Lemma getters_MakeDay_first (y m : Z) :
  0 <= m <= 11 ->
  YearFromDay (MakeDay y m 1) = y /\
  MonthFromDay (MakeDay y m 1) = m /\
  DateFromDay (MakeDay y m 1) = 1.
Proof.
  intros Hm. unfold MakeDay. cbv zeta.
  rewrite (Z.div_small m 12), (Z.mod_small m 12) by lia. rewrite Z.add_0_r.
  set (t := DayFromYear y + monthStart (InLeapYear y) m + 1 - 1).
  assert (Hy : YearFromDay t = y).
  { apply YearFromDay_unique. rewrite DayFromYear_step, DaysInYear_cases.
    pose proof (monthStart_range (InLeapYear y) m Hm).
    subst t. destruct (InLeapYear y); lia. }
  assert (Hmo : MonthFromDay t = m).
  { unfold MonthFromDay, DayWithinYear. rewrite Hy. cbv zeta. subst t.
    assert (m = 0 \/ m = 1 \/ m = 2 \/ m = 3 \/ m = 4 \/ m = 5 \/ m = 6 \/ m = 7
            \/ m = 8 \/ m = 9 \/ m = 10 \/ m = 11) as Hc by lia.
    destruct (InLeapYear y);
      repeat (destruct Hc as [->|Hc]; [eval_monthStart; split_tests; lia|]);
      subst m; eval_monthStart; split_tests; lia. }
  split; [exact Hy|]. split; [exact Hmo|].
  unfold DateFromDay, DayWithinYear. rewrite Hmo, Hy. subst t. lia.
Qed.


(** ** Date utilities *)

Lemma newDate_plain (y m d : Z) :
  twoDigitYear y = false -> localDay (newDate y m d) = MakeDay y m d.
Proof. unfold newDate. intros ->. reflexivity. Qed.

(** [addDays d n] always lies [n] days after [addDays d 0]. *)
Lemma addDays_shift (d : Date) (n : Z) :
  localDay (addDays d n) = localDay (addDays d 0) + n.
Proof. unfold addDays, newDate. cbn [localDay]. rewrite !MakeDay_add. lia. Qed.

(** Outside the two-digit years [addDays] is addition on days. *)
Lemma addDays_exact (d : Date) (n : Z) :
  twoDigitYear (getFullYear d) = false ->
  localDay (addDays d n) = localDay d + n.
Proof.
  intros Hy. unfold addDays. rewrite newDate_plain by exact Hy.
  apply MakeDay_getters.
Qed.

Lemma startOfMonth_getters (d : Date) :
  twoDigitYear (getFullYear d) = false ->
  getFullYear (startOfMonth d) = getFullYear d /\
  getMonth (startOfMonth d) = getMonth d /\
  getDate (startOfMonth d) = 1.
Proof.
  intros Hy. unfold startOfMonth, getFullYear, getMonth, getDate in *.
  rewrite newDate_plain by exact Hy.
  apply getters_MakeDay_first, MonthFromDay_range.
Qed.


(** Two dates have the same year, month and date exactly when they are the
    same day. *)
Lemma sameDay_iff (a b : Date) : sameDay a b = true <-> localDay a = localDay b.
Proof.
  unfold sameDay, getFullYear, getMonth, getDate. split.
  - rewrite !andb_true_iff, !Z.eqb_eq. intros [[Hy Hm] Hd].
    pose proof (MakeDay_getters (localDay a) 0) as Ha.
    pose proof (MakeDay_getters (localDay b) 0) as Hb.
    rewrite Hy, Hm, Hd in Ha. lia.
  - intros ->. rewrite !Z.eqb_refl. reflexivity.
Qed.

Lemma sameDay_eqb (a b : Date) : sameDay a b = (localDay a =? localDay b).
Proof.
  destruct (Z.eqb_spec (localDay a) (localDay b)) as [H|H].
  - apply sameDay_iff, H.
  - apply not_true_is_false. rewrite sameDay_iff. exact H.
Qed.

(** Stepping back by the Monday-first index lands on a Monday. *)
Lemma monday_before (t : Z) : WeekDay (t - (WeekDay t + 6) mod 7) = 1.
Proof. unfold WeekDay. zdiv. Qed.

Lemma mondayFirstDow_range (d : Date) : 0 <= mondayFirstDow d <= 6.
Proof. unfold mondayFirstDow. cbv zeta. zdiv. Qed.

(** ** The month grid *)

Lemma cells_monthDays (cursor today : Date) :
  cells (monthDays cursor today) =
  (fun i : Z =>
     let d := addDays (firstCell cursor) i in
     {| date := d;
        inMonth := getMonth d =? getMonth cursor;
        isToday := sameDay d today |}) <$> seqZ 0 42.
Proof. reflexivity. Qed.

Lemma length_cells (cursor today : Date) :
  length (cells (monthDays cursor today)) = 42%nat.
Proof. rewrite cells_monthDays, length_fmap, length_seqZ. reflexivity. Qed.

Lemma lookup_cells (cursor today : Date) (i : nat) (c : Cell) :
  cells (monthDays cursor today) !! i = Some c ->
  (i < 42)%nat /\
  date c = addDays (firstCell cursor) (Z.of_nat i) /\
  isToday c = sameDay (date c) today.
Proof.
  rewrite cells_monthDays, list_lookup_fmap, fmap_Some.
  intros (z & Hz & ->). apply lookup_seqZ in Hz as [-> Hi].
  cbv beta zeta. cbn [date isToday]. rewrite Z.add_0_l.
  split; [lia|]. split; reflexivity.
Qed.

Lemma lookup_cells_lt (cursor today : Date) (i : nat) :
  (i < 42)%nat -> is_Some (cells (monthDays cursor today) !! i).
Proof. intros Hi. apply lookup_lt_is_Some. rewrite length_cells. exact Hi. Qed.

(** The day of cell [i] is the day of cell 0 plus [i]. *)
Lemma cells_consecutive (cursor today : Date) (i : nat) (c : Cell) :
  cells (monthDays cursor today) !! i = Some c ->
  localDay (date c) = localDay (addDays (firstCell cursor) 0) + Z.of_nat i.
Proof.
  intros Hc. apply lookup_cells in Hc as (_ & -> & _). apply addDays_shift.
Qed.

Lemma firstCell_day (cursor : Date) :
  twoDigitYear (getFullYear cursor) = false ->
  localDay (firstCell cursor) =
  localDay (startOfMonth cursor) - mondayFirstDow (startOfMonth cursor).
Proof.
  intros Hy. unfold firstCell. cbv zeta.
  destruct (startOfMonth_getters cursor Hy) as (Hys & _ & _).
  rewrite addDays_exact by (rewrite Hys; exact Hy). lia.
Qed.

(** [firstCell] is the latest Monday on or before the first of the month. *)
Lemma firstCell_latest_monday (cursor : Date) :
  twoDigitYear (getFullYear cursor) = false ->
  getDay (firstCell cursor) = 1 /\
  localDay (startOfMonth cursor) - 6 <= localDay (firstCell cursor)
    <= localDay (startOfMonth cursor).
Proof.
  intros Hy. pose proof (mondayFirstDow_range (startOfMonth cursor)) as Hk.
  unfold getDay. rewrite (firstCell_day cursor Hy). split; [|lia].
  apply monday_before.
Qed.

(** For a cursor in a year after 100 or before 0, neither the cursor nor
    [firstCell] is in a two-digit year. *)
Lemma firstCell_year_plain (cursor : Date) :
  getFullYear cursor < 0 \/ 100 < getFullYear cursor ->
  twoDigitYear (getFullYear cursor) = false /\
  twoDigitYear (getFullYear (firstCell cursor)) = false.
Proof.
  intros Hrange.
  assert (Hy : twoDigitYear (getFullYear cursor) = false).
  { unfold twoDigitYear.
    destruct (Z.leb_spec 0 (getFullYear cursor)),
      (Z.leb_spec (getFullYear cursor) 99); try reflexivity; lia. }
  split; [exact Hy|].
  destruct (firstCell_latest_monday cursor Hy) as [_ Hfc].
  unfold startOfMonth in Hfc. rewrite newDate_plain in Hfc by exact Hy.
  set (Y := getFullYear cursor) in *. set (M := getMonth cursor) in *.
  assert (HM : 0 <= M <= 11) by apply MonthFromDay_range.
  pose proof (monthStart_range (InLeapYear Y) M HM) as Hms.
  assert (Hs : DayFromYear Y <= MakeDay Y M 1 < DayFromYear (Y + 1)).
  { destruct (getters_MakeDay_first Y M HM) as (HyM & _ & _).
    pose proof (YearFromDay_spec (MakeDay Y M 1)) as Hsp. rewrite HyM in Hsp.
    exact Hsp. }
  pose proof (DayFromYear_step (Y - 1)) as Hprev.
  rewrite DaysInYear_cases in Hprev. replace (Y - 1 + 1) with Y in Hprev by lia.
  assert (Hcase : getFullYear (firstCell cursor) = Y \/
                  getFullYear (firstCell cursor) = Y - 1).
  { unfold getFullYear.
    destruct (Z_le_gt_dec (DayFromYear Y) (localDay (firstCell cursor))).
    - left. apply YearFromDay_unique. lia.
    - right. apply YearFromDay_unique. replace (Y - 1 + 1) with Y by lia.
      destruct (InLeapYear (Y - 1)); lia. }
  unfold twoDigitYear.
  destruct (Z.leb_spec 0 (getFullYear (firstCell cursor))),
    (Z.leb_spec (getFullYear (firstCell cursor)) 99); try reflexivity; lia.
Qed.





(** ** Today's cell *)

Lemma length_filter_fmap {A B : Type} (f : A -> B) (p : B -> bool) (l : list A) :
  length (List.filter p (f <$> l)) = length (List.filter (fun a => p (f a)) l).
Proof.
  induction l as [|a l IH]; [reflexivity|]. cbn [fmap list_fmap List.filter].
  destruct (p (f a)); cbn [length]; rewrite <- IH; reflexivity.
Qed.

(** Among the [len] days from [w + a] on, [t] occurs once if it is one of
    them and not at all otherwise. *)
Lemma length_filter_hit (w t : Z) (len a : nat) :
  length (List.filter (fun i : nat => w + Z.of_nat i =? t) (seq a len)) =
  if (w + Z.of_nat a <=? t) && (t <? w + Z.of_nat a + Z.of_nat len)
  then 1%nat else 0%nat.
Proof.
  revert a. induction len as [|len IH]; intros a; cbn [seq List.filter].
  - destruct (Z.leb_spec (w + Z.of_nat a) t), (Z.ltb_spec t (w + Z.of_nat a + Z.of_nat 0));
      cbn [andb]; try reflexivity; lia.
  - rewrite <- seq_shift. specialize (IH (S a)). rewrite <- seq_shift in IH.
    destruct (Z.eqb_spec (w + Z.of_nat a) t) as [He|He]; cbn [length]; rewrite IH;
      destruct (Z.leb_spec (w + Z.of_nat (S a)) t),
        (Z.ltb_spec t (w + Z.of_nat (S a) + Z.of_nat len)),
        (Z.leb_spec (w + Z.of_nat a) t),
        (Z.ltb_spec t (w + Z.of_nat a + Z.of_nat (S len)));
      cbn [andb]; try reflexivity; lia.
Qed.

(** C9. For every cursor and every "today", the number of grid cells whose
    [isToday] flag is set is 1 when today lies in the 42 days starting at
    the date of cell 0, and 0 otherwise. *)
Theorem monthDays_isToday_once (cursor today : Date) :
  exists c0 : Cell,
    cells (monthDays cursor today) !! 0%nat = Some c0 /\
    length (List.filter isToday (cells (monthDays cursor today))) =
    if (localDay (date c0) <=? localDay today)
       && (localDay today <? localDay (date c0) + 42)
    then 1%nat else 0%nat.
Proof.
  destruct (lookup_cells_lt cursor today 0) as [c0 Hc0]; [lia|].
  exists c0. split; [exact Hc0|].
  apply cells_consecutive in Hc0. rewrite Hc0, Z.add_0_r.
  set (w := localDay (addDays (firstCell cursor) 0)).
  rewrite cells_monthDays.
  change (seqZ 0 42) with (Z.of_nat <$> seq 0 42).
  rewrite <- list_fmap_compose, length_filter_fmap.
  rewrite (List.filter_ext _ (fun i : nat => w + Z.of_nat i =? localDay today)).
  - rewrite length_filter_hit. rewrite Z.add_0_r. reflexivity.
  - intros i. cbv beta zeta. unfold compose. cbn [isToday].
    rewrite sameDay_eqb, addDays_shift. reflexivity.
Qed.

(** ** Availability model *)

Section AvailabilityModel.

Implicit Types (a : Availability) (p d : string) (s : Status).

Lemma lookup_setStatus_same a p d s :
  setStatusInAvailability a p d s !! p =
  Some (<[d := Status_eqb s available]> (default ∅ (a !! p))).
Proof. unfold setStatusInAvailability. cbv zeta. apply lookup_insert_eq. Qed.

Lemma lookup_setStatus_other a p d s p' :
  p' ≠ p -> setStatusInAvailability a p d s !! p' = a !! p'.
Proof.
  intros Hp. unfold setStatusInAvailability. cbv zeta.
  apply lookup_insert_ne. congruence.
Qed.


(** Every other cell reads as before. *)
Lemma getStatus_set_other a p d s p' d' :
  (p', d') ≠ (p, d) ->
  getStatusFromAvailability (setStatusInAvailability a p d s) p' d' =
  getStatusFromAvailability a p' d'.
Proof.
  intros Hne. unfold getStatusFromAvailability.
  destruct (decide (p' = p)) as [->|Hp].
  - assert (Hd : d ≠ d') by congruence.
    rewrite lookup_setStatus_same, lookup_insert_ne by exact Hd.
    destruct (a !! p) as [per|]; [reflexivity|]. cbn [default].
    rewrite lookup_empty. reflexivity.
  - rewrite lookup_setStatus_other by exact Hp. reflexivity.
Qed.

End AvailabilityModel.

(** A pair that no write of a history targets reads [available] after the
    history has been applied to the empty mapping. *)
Lemma getStatus_never_written
    (writes : list (string * string * Status)) (p d : string) :
  Forall (fun w => (p, d) ≠ (w.1.1, w.1.2)) writes ->
  getStatusFromAvailability
    (foldl (fun a w => setStatusInAvailability a w.1.1 w.1.2 w.2) ∅ writes) p d
  = available.
Proof.
  induction writes as [|w writes IH] using rev_ind; intros Hall.
  - cbn [foldl]. unfold getStatusFromAvailability. rewrite lookup_empty.
    reflexivity.
  - apply Forall_app in Hall as [Hall Hw].
    rewrite Forall_singleton in Hw. rewrite foldl_app. cbn [foldl].
    rewrite getStatus_set_other by exact Hw. apply IH, Hall.
Qed.





(** C10. The availability model of the localStorage-only starter and that
    of the Supabase-backed component compute the same function. *)
Theorem App_model_equal
    (a : Availability) (p d : string) (s : Status) :
  App.getStatusFromAvailability a p d = getStatusFromAvailability a p d /\
  App.setStatusInAvailability a p d s = setStatusInAvailability a p d s.
Proof. split; reflexivity. Qed.

(** ** Running request trees *)

Lemma exec_bind {A B : Type} (env : Env) (m : Action A) (f : A -> Action B)
    (hist : list Event) (a : Availability) :
  exec env (m ≫= f) hist a =
  exec env (f (result (exec env m hist a)))
    (trace (exec env m hist a)) (final (exec env m hist a)).
Proof.
  change (m ≫= f) with (bind m f). revert hist a.
  induction m as [x|g k IH|msg k IH|r k IH|lo hi k IH]; intros hist a;
    cbn [bind exec result trace final]; auto.
Qed.

Lemma exec_ret {A : Type} (env : Env) (x : A) (hist : list Event)
    (a : Availability) :
  exec env (mret x) hist a = MkOutcome a hist x.
Proof. reflexivity. Qed.

Lemma exec_setAvailability (env : Env) (f : Availability -> Availability)
    (hist : list Event) (a : Availability) :
  exec env (setAvailability f) hist a =
  MkOutcome (f a) (hist ++ [EvSetAvailability (f a)]) tt.
Proof. reflexivity. Qed.

Lemma exec_consoleError (env : Env) (msg : string)
    (hist : list Event) (a : Availability) :
  exec env (consoleError msg) hist a =
  MkOutcome a (hist ++ [EvConsoleError msg]) tt.
Proof. reflexivity. Qed.

Lemma exec_upsert (env : Env) (r : DbRow.t) (hist : list Event) (a : Availability) :
  exec env (upsert r) hist a =
  MkOutcome (whileSuspended env (hist ++ [EvUpsert r]) a)
    (hist ++ [EvUpsert r]) (upsertReply env hist r).
Proof. reflexivity. Qed.

Lemma exec_selectRange (env : Env) (lo hi : string)
    (hist : list Event) (a : Availability) :
  exec env (selectRange lo hi) hist a =
  MkOutcome (whileSuspended env (hist ++ [EvSelectRange lo hi]) a)
    (hist ++ [EvSelectRange lo hi]) (selectReply env hist lo hi).
Proof. reflexivity. Qed.

(** ** Bulk refresh *)



(** The first and the last cell of the grid, whose dates bound the query. *)
Lemma cells_first_last (cursor today : Date) :
  exists (c0 cN : Cell) (rest : list Cell),
    cells (monthDays cursor today) = c0 :: rest /\
    cells (monthDays cursor today) !! 0%nat = Some c0 /\
    cells (monthDays cursor today) !! 41%nat = Some cN /\
    last (cells (monthDays cursor today)) = Some cN.
Proof.
  destruct (lookup_cells_lt cursor today 41) as [cN HcN]; [lia|].
  pose proof (length_cells cursor today) as Hlen.
  destruct (cells (monthDays cursor today)) as [|c0 rest] eqn:Hcells;
    [discriminate|].
  exists c0, cN, rest. split; [reflexivity|]. split; [reflexivity|].
  split; [exact HcN|]. rewrite last_lookup, Hlen. exact HcN.
Qed.

(** What a run of [refreshAvailability] does: one range query bounded by
    the dates of cells 0 and 41; on an error reply a log line and nothing
    else; otherwise the mapping is replaced by the one built from the rows. *)
Lemma exec_refreshAvailability (env : Env) (s : State)
    (hist : list Event) (a : Availability) :
  exists c0 cN : Cell,
    cells (monthDays (cursor s) (today s)) !! 0%nat = Some c0 /\
    cells (monthDays (cursor s) (today s)) !! 41%nat = Some cN /\
    let lo := isoDate (date c0) in
    let hi := isoDate (date cN) in
    let r := selectReply env hist lo hi in
    let hist' := hist ++ [EvSelectRange lo hi] in
    exec env (refreshAvailability s) hist a =
    match error r with
    | Some _ =>
        MkOutcome (whileSuspended env hist' a)
          (hist' ++ [EvConsoleError "Failed to load availability"]) tt
    | None =>
        let next := availabilityOfRows (default [] (data r)) in
        MkOutcome next (hist' ++ [EvSetAvailability next]) tt
    end.
Proof.
  destruct (cells_first_last (cursor s) (today s))
    as (c0 & cN & rest & Hcells & H0 & HN & Hlast).
  exists c0, cN. split; [exact H0|]. split; [exact HN|]. cbv zeta.
  unfold refreshAvailability. cbv zeta. rewrite Hlast, Hcells.
  change (default c0 (Some cN)) with cN.
  rewrite exec_bind, exec_selectRange. cbn [result trace final].
  destruct (error (selectReply env hist (isoDate (date c0)) (isoDate (date cN))));
    reflexivity.
Qed.


(** ** Optimistic write *)



(** ** Day click *)



(** ** The "Unavailable" show button *)

Lemma anyUnavailable_spec (s : State) (p : string) (cs : list Cell) :
  anyUnavailable s p cs = true <->
  exists cell : Cell,
    cell ∈ cs /\ getStatus s p (isoDate (date cell)) = unavailable.
Proof.
  induction cs as [|c cs IH]; cbn [anyUnavailable].
  - split; [discriminate|]. intros (cell & Hin & _). inversion Hin.
  - destruct (getStatus s p (isoDate (date c))) eqn:Hc; cbn [Status_eqb].
    + rewrite IH. split.
      * intros (cell & Hin & Hst). exists cell. split; [right; exact Hin|exact Hst].
      * intros (cell & Hin & Hst). apply elem_of_cons in Hin as [->|Hin].
        -- congruence.
        -- exists cell. split; [exact Hin|exact Hst].
    + split; [|reflexivity]. intros _. exists c. split; [left|exact Hc].
Qed.

Lemma elem_of_foldl_ids (s : State) (cs : list Cell) (l : list Person.t)
    (acc : gset string) (x : string) :
  x ∈ foldl (fun (ids : gset string) p =>
               if anyUnavailable s (Person.id p) cs
               then ids ∪ {[Person.id p]} else ids) acc l <->
  x ∈ acc \/
  exists p : Person.t,
    p ∈ l /\ Person.id p = x /\ anyUnavailable s x cs = true.
Proof.
  revert acc. induction l as [|q l IH]; intros acc; cbn [foldl].
  - split; [intros H; left; exact H|].
    intros [H|(p & Hin & _)]; [exact H|inversion Hin].
  - rewrite IH. split.
    + intros [Hacc|(p & Hin & Hid & Hany)].
      * destruct (anyUnavailable s (Person.id q) cs) eqn:Hq.
        -- apply elem_of_union in Hacc as [Hacc|Hx]; [left; exact Hacc|].
           apply elem_of_singleton in Hx. subst x.
           right. exists q. split; [left|]. split; [reflexivity|exact Hq].
        -- left. exact Hacc.
      * right. exists p. split; [right; exact Hin|]. split; [exact Hid|exact Hany].
    + intros [Hacc|(p & Hin & Hid & Hany)].
      * left. destruct (anyUnavailable s (Person.id q) cs);
          [apply elem_of_union; left|]; exact Hacc.
      * apply elem_of_cons in Hin as [->|Hin].
        -- left. rewrite Hid, Hany. apply elem_of_union. right.
           apply elem_of_singleton. reflexivity.
        -- right. exists p. split; [exact Hin|]. split; [exact Hid|exact Hany].
Qed.

Lemma elem_of_idsWithUnavailable (s : State) (x : string) :
  x ∈ idsWithUnavailable s <->
  (exists p : Person.t, p ∈ people s /\ Person.id p = x) /\
  exists cell : Cell,
    cell ∈ cells (monthDays (cursor s) (today s)) /\
    getStatus s x (isoDate (date cell)) = unavailable.
Proof.
  unfold idsWithUnavailable. rewrite elem_of_foldl_ids, <- anyUnavailable_spec.
  split.
  - intros [Hemp|(p & Hin & Hid & Hany)]; [inversion Hemp|].
    split; [exists p; split; [exact Hin|exact Hid]|exact Hany].
  - intros [(p & Hin & Hid) Hany]. right. exists p.
    split; [exact Hin|]. split; [exact Hid|exact Hany].
Qed.

(** C5. Pressing "Unavailable" switches the show mode to [onlyUnavailable]
    and makes the selection exactly the ids of the known people who have a
    cell of the grid on which they read [unavailable].  When the known
    people are A and B, A has such a cell and B has none, the selection
    becomes {A}. *)
Theorem onlyUnavailable_selects (s : State) :
  showMode (onlyUnavailableClick s) = onlyUnavailable /\
  (forall x : string,
     x ∈ selectedIds (onlyUnavailableClick s) <->
     (exists p : Person.t, p ∈ people s /\ Person.id p = x) /\
     exists cell : Cell,
       cell ∈ cells (monthDays (cursor s) (today s)) /\
       getStatus s x (isoDate (date cell)) = unavailable) /\
  (forall A B : Person.t,
     people s = [A; B] ->
     (exists cell : Cell,
        cell ∈ cells (monthDays (cursor s) (today s)) /\
        getStatus s (Person.id A) (isoDate (date cell)) = unavailable) ->
     (forall cell : Cell,
        cell ∈ cells (monthDays (cursor s) (today s)) ->
        getStatus s (Person.id B) (isoDate (date cell)) = available) ->
     selectedIds (onlyUnavailableClick s) = {[Person.id A]}).
Proof.
  split; [reflexivity|]. split; [apply elem_of_idsWithUnavailable|].
  intros A B Hpeople HA HB. cbn [onlyUnavailableClick selectedIds].
  apply set_eq. intros x.
  rewrite elem_of_idsWithUnavailable, elem_of_singleton, Hpeople. split.
  - intros [(p & Hin & Hid) (cell & Hcell & Hst)].
    apply elem_of_cons in Hin as [->|Hin]; [symmetry; exact Hid|].
    apply list_elem_of_singleton in Hin. subst p. subst x.
    rewrite (HB cell Hcell) in Hst. discriminate Hst.
  - intros ->. split; [|exact HA]. exists A. split; [left|reflexivity].
Qed.

(** The scenario on the demo data: in the grid of February 2026, A is
    unavailable on 10 February and B never; the selection becomes {A}. *)
Lemma onlyUnavailable_selects_witness :
  selectedIds (onlyUnavailableClick demoState) = {["A"%string]}.
Proof.
  assert (HB : availability demoState !! "B"%string = None)
    by (vm_compute; reflexivity).
  apply (proj2 (proj2 (onlyUnavailable_selects demoState)) personA personB).
  - reflexivity.
  - exists {| date := MkDate 20494; inMonth := true; isToday := false |}.
    split; [|vm_compute; reflexivity].
    apply (list_elem_of_lookup_2 _ 15%nat). vm_compute. reflexivity.
  - intros cell _. change (Person.id personB) with "B"%string.
    unfold getStatus, getStatusFromAvailability. rewrite HB. reflexivity.
Defined.


(** ** Checks on concrete dates *)

Example isoDate_feb_2026 : isoDate (newDate 2026 1 1) = "2026-02-01"%string.
Proof. vm_compute. reflexivity. Qed.

Example isoDate_month_overflow : isoDate (newDate 2025 12 0) = "2025-12-31"%string.
Proof. vm_compute. reflexivity. Qed.

Example newDate_two_digit_year : getFullYear (newDate 99 11 28) = 1999.
Proof. vm_compute. reflexivity. Qed.

Example isoDate_leap_day : isoDate (newDate 2024 1 29) = "2024-02-29"%string.
Proof. vm_compute. reflexivity. Qed.

Example isoDate_no_leap_day_1900 : isoDate (newDate 1900 1 29) = "1900-03-01"%string.
Proof. vm_compute. reflexivity. Qed.

Example isoDate_negative_month : isoDate (newDate 2026 (-1) 1) = "2025-12-01"%string.
Proof. vm_compute. reflexivity. Qed.

Example getDay_epoch : getDay (newDate 1970 0 1) = 4.
Proof. vm_compute. reflexivity. Qed.

Example self_test_scenario :
  getStatusFromAvailability
    (setStatusInAvailability ∅ "p1" "2026-02-01" unavailable) "p1" "2026-02-01"
    = unavailable /\
  getStatusFromAvailability
    (setStatusInAvailability ∅ "p1" "2026-02-01" unavailable) "p2" "2026-02-01"
    = available.
Proof. split; vm_compute; reflexivity. Qed.

(** The cursor 2026-02-01, a Sunday, gives a grid starting on 2026-01-26. *)
Example firstCell_feb_2026 :
  isoDate <$> (date <$> head (cells (monthDays (newDate 2026 1 1) demoToday)))
  = Some "2026-01-26"%string.
Proof. vm_compute. reflexivity. Qed.

(** * Further properties of the code *)

(** ** Months as intervals of days *)











(** ** Date utilities *)







(** ** More on the month grid *)









(** ** Month navigation *)









(** ** ISO day keys *)








(** ** Writes to the mapping *)

Lemma default_Some {A : Type} (x y : A) : default x (Some y) = y.
Proof. reflexivity. Qed.

(** X8. A second write to the same cell replaces the first: the mapping is
    the one a single write of the later status gives (last write wins), so
    repeating a write changes nothing. *)
Theorem setStatus_last_write_wins
    (a : Availability) (p d : string) (s s' : Status) :
  setStatusInAvailability (setStatusInAvailability a p d s) p d s'
  = setStatusInAvailability a p d s'.
Proof.
  apply map_eq. intros k. destruct (decide (k = p)) as [->|Hk].
  - rewrite !lookup_setStatus_same, default_Some, insert_insert_eq. reflexivity.
  - rewrite !lookup_setStatus_other by exact Hk. reflexivity.
Qed.



(** ** The mapping built by a refresh *)


(** ** Push patches *)


(** ** Refresh: failure, bounds, empty replies *)

(** X12. When the range query is answered with an error, the refresh logs
    it and never writes the mapping: its trace is the query followed by the
    log line, and the mapping is what it was (up to what the environment
    did during the wait). *)
Theorem refresh_error_keeps_mapping
    (env : Env) (s : State) (a : Availability) (c0 cN : Cell) (e : string) :
  cells (monthDays (cursor s) (today s)) !! 0%nat = Some c0 ->
  cells (monthDays (cursor s) (today s)) !! 41%nat = Some cN ->
  error (selectReply env [] (isoDate (date c0)) (isoDate (date cN))) = Some e ->
  trace (run env (refreshAvailability s) a) =
    [EvSelectRange (isoDate (date c0)) (isoDate (date cN));
     EvConsoleError "Failed to load availability"] /\
  final (run env (refreshAvailability s) a) =
    whileSuspended env
      [EvSelectRange (isoDate (date c0)) (isoDate (date cN))] a.
Proof.
  intros H0 HN Herr.
  destruct (exec_refreshAvailability env s [] a) as (c0' & cN' & H0' & HN' & Hrun).
  rewrite H0 in H0'. rewrite HN in HN'.
  injection H0' as <-. injection HN' as <-.
  cbv zeta in Hrun. rewrite Herr in Hrun.
  unfold run. rewrite Hrun. split; reflexivity.
Qed.

Lemma refresh_error_keeps_mapping_witness :
  final (run failingEnv (refreshAvailability demoState) demoAvailability)
  = demoAvailability.
Proof.
  destruct (refresh_error_keeps_mapping failingEnv demoState demoAvailability
              {| date := MkDate 20479; inMonth := false; isToday := false |}
              {| date := MkDate 20520; inMonth := false; isToday := false |}
              "offline")
    as [_ Hfinal].
  - vm_compute. reflexivity.
  - vm_compute. reflexivity.
  - reflexivity.
  - exact Hfinal.
Defined.




(** ** Where an optimistic write ends up *)

(** X15. In an environment that leaves the mapping alone during waits, a
    run of the remote [setStatus] ends, when its refresh query succeeds, in
    the mapping built from the returned rows, and, when that query fails,
    in the mapping with the optimistic write, whether the upsert succeeded
    or not. *)
Theorem setStatus_final_state
    (env : Env) (s : State) (p d : string) (st : Status) (a : Availability) :
  (forall (h : list Event) (x : Availability), whileSuspended env h x = x) ->
  exists (h : list Event) (lo hi : string) (tail : list Event),
    trace (run env (setStatus s p d st) a) = h ++ [EvSelectRange lo hi] ++ tail /\
    final (run env (setStatus s p d st) a) =
      match error (selectReply env h lo hi) with
      | Some _ => setStatusInAvailability a p d st
      | None => availabilityOfRows (default [] (data (selectReply env h lo hi)))
      end.
Proof.
  intros Hquiet. unfold run, setStatus.
  rewrite !exec_bind, exec_setAvailability. cbn [result trace final app].
  rewrite exec_upsert. cbn [result trace final app]. rewrite Hquiet.
  destruct (upsertReply env _ _) as [e|].
  - rewrite !exec_bind, exec_consoleError. cbn [result trace final app].
    match goal with
    | |- context [exec env (refreshAvailability s) ?h ?x] =>
        destruct (exec_refreshAvailability env s h x) as (c0 & cN & _ & _ & Hrun);
        exists h
    end.
    cbv zeta in Hrun. rewrite Hrun, Hquiet.
    exists (isoDate (date c0)), (isoDate (date cN)).
    destruct (error _); eexists; split; reflexivity.
  - match goal with
    | |- context [exec env (refreshAvailability s) ?h ?x] =>
        destruct (exec_refreshAvailability env s h x) as (c0 & cN & _ & _ & Hrun);
        exists h
    end.
    cbv zeta in Hrun. rewrite Hrun, Hquiet.
    exists (isoDate (date c0)), (isoDate (date cN)).
    destruct (error _); eexists; split; reflexivity.
Qed.

Lemma setStatus_final_state_witness :
  exists (h : list Event) (lo hi : string) (tail : list Event),
    trace (run failingEnv (setStatus demoState "A" "2026-02-11" unavailable)
             demoAvailability) = h ++ [EvSelectRange lo hi] ++ tail /\
    final (run failingEnv (setStatus demoState "A" "2026-02-11" unavailable)
             demoAvailability) =
      match error (selectReply failingEnv h lo hi) with
      | Some _ => setStatusInAvailability demoAvailability "A" "2026-02-11" unavailable
      | None =>
          availabilityOfRows (default [] (data (selectReply failingEnv h lo hi)))
      end.
Proof.
  apply (setStatus_final_state failingEnv demoState "A" "2026-02-11" unavailable
           demoAvailability).
  intros h x. reflexivity.
Defined.

(** ** Selection and rendering *)

(** X16. [toggleSelect] flips the membership of the given id and of no
    other id, and toggling the same id twice gives the selection back. *)
Theorem toggleSelect_flips_one (personId : string) (prev : gset string) :
  (forall x : string,
     x ∈ toggleSelect personId prev <->
     if decide (x = personId) then x ∉ prev else x ∈ prev) /\
  toggleSelect personId (toggleSelect personId prev) = prev.
Proof.
  assert (Hmem : forall (q : string) (S : gset string) (x : string),
            x ∈ toggleSelect q S <->
            if decide (x = q) then x ∉ S else x ∈ S).
  { intros q S x. unfold toggleSelect. cbv zeta.
    destruct (decide (q ∈ S)) as [Hin|Hin], (decide (x = q)) as [->|Hx];
      rewrite ?elem_of_difference, ?elem_of_union, ?elem_of_singleton; tauto. }
  split; [apply Hmem|].
  apply set_eq. intros x. rewrite Hmem.
  destruct (decide (x = personId)) as [->|Hx].
  - rewrite Hmem. rewrite decide_True by reflexivity.
    destruct (decide (personId ∈ prev)); tauto.
  - rewrite Hmem. rewrite decide_False by exact Hx. reflexivity.
Qed.

Lemma filter_all_true {A : Type} (f : A -> bool) (l : list A) :
  (forall x : A, x ∈ l -> f x = true) -> List.filter f l = l.
Proof.
  induction l as [|x l IH]; intros Hall; [reflexivity|]. cbn [List.filter].
  rewrite (Hall x) by left. f_equal. apply IH. intros y Hy. apply Hall.
  right. exact Hy.
Qed.

Lemma filter_filter_implied {A : Type} (f g : A -> bool) (l : list A) :
  (forall x : A, x ∈ l -> f x = true -> g x = true) ->
  List.filter f (List.filter g l) = List.filter f l.
Proof.
  induction l as [|x l IH]; intros Himp; [reflexivity|]. cbn [List.filter].
  assert (IH' : List.filter f (List.filter g l) = List.filter f l).
  { apply IH. intros y Hy. apply Himp. right. exact Hy. }
  destruct (g x) eqn:Hg; cbn [List.filter].
  - rewrite IH'. reflexivity.
  - destruct (f x) eqn:Hf; [|exact IH'].
    rewrite (Himp x) in Hg; [discriminate|left|exact Hf].
Qed.

(** X17. After "All" every known person is selected and drawn in every
    cell, in the order of the people list; after "None" nobody is selected
    and nobody is drawn. *)
Theorem show_all_and_none (s : State) (dStr : string) :
  selectedPeople (allClick s) = people s /\
  peopleToRender (allClick s) dStr = people s /\
  selectedPeople (noneClick s) = [] /\
  peopleToRender (noneClick s) dStr = [].
Proof.
  assert (Hall : selectedPeople (allClick s) = people s).
  { unfold selectedPeople. cbn [allClick people selectedIds].
    apply filter_all_true. intros x Hx. apply bool_decide_eq_true.
    apply elem_of_list_to_set, list_elem_of_fmap. exists x. split; [reflexivity|exact Hx]. }
  split; [exact Hall|]. split; [exact Hall|]. split; [|reflexivity].
  unfold selectedPeople. cbn [noneClick people selectedIds]. clear Hall.
  induction (people s) as [|x l IH]; [reflexivity|]. cbn [List.filter].
  rewrite bool_decide_eq_false_2 by apply not_elem_of_empty. exact IH.
Qed.

(** X18. After "Unavailable", the people drawn in the cell of a grid day
    are exactly the known people who are unavailable on that day, in the
    order of the people list: selecting by "some unavailable day in the
    grid" and then filtering per cell loses nobody. *)
Theorem onlyUnavailable_renders_unavailable (s : State) (cell : Cell) :
  cell ∈ cells (monthDays (cursor s) (today s)) ->
  peopleToRender (onlyUnavailableClick s) (isoDate (date cell)) =
  List.filter
    (fun p => Status_eqb (getStatus s (Person.id p) (isoDate (date cell)))
                unavailable)
    (people s).
Proof.
  intros Hcell. unfold peopleToRender, selectedPeople.
  cbn [onlyUnavailableClick showMode people selectedIds].
  change (getStatus (onlyUnavailableClick s)) with (getStatus s).
  apply filter_filter_implied. intros x Hx Hst.
  apply bool_decide_eq_true, elem_of_idsWithUnavailable. split.
  - exists x. split; [exact Hx|reflexivity].
  - exists cell. split; [exact Hcell|].
    destruct (getStatus s (Person.id x) (isoDate (date cell)));
      [discriminate Hst|reflexivity].
Qed.

Lemma onlyUnavailable_renders_unavailable_witness :
  peopleToRender (onlyUnavailableClick demoState) "2026-02-10" = [personA].
Proof.
  change "2026-02-10"%string
    with (isoDate (date {| date := MkDate 20494; inMonth := true; isToday := false |})).
  rewrite (onlyUnavailable_renders_unavailable demoState
             {| date := MkDate 20494; inMonth := true; isToday := false |}).
  - vm_compute. reflexivity.
  - apply (list_elem_of_lookup_2 _ 15%nat). vm_compute. reflexivity.
Defined.

(** ** Loading the people list *)


(** ** Password gate *)

(** X20. With working storage, submitting the right password unlocks the
    gate and a later mount starts unlocked; locking then makes later mounts
    start locked again. *)
Theorem unlock_persists_until_lock (g : Gate) (st : Storage) :
  mode st = Working ->
  pw g = APP_PASSWORD ->
  let '(g1, st1) := submit g st in
  let '(g2, st2) := lock g1 st1 in
  unlocked g1 = true /\ gateError g1 = None /\
  unlocked (gateInit st1) = true /\
  unlocked g2 = false /\ pw g2 = ""%string /\
  unlocked (gateInit st2) = false.
Proof.
  destruct st as [its md]. destruct g as [pw0 err0 ul0].
  cbn [mode pw]. intros -> ->.
  unfold submit, lock, gateInit, getItem, setItem, removeItem.
  cbn [pw mode items]. rewrite String.eqb_refl, !default_Some.
  cbn [mode items unlocked gateError pw]. rewrite !default_Some.
  cbn [mode items].
  rewrite (lookup_insert_eq (M := gmap string) its UNLOCK_KEY "1"%string).
  rewrite (lookup_delete_eq (M := gmap string) (<[UNLOCK_KEY := "1"%string]> its) UNLOCK_KEY).
  rewrite String.eqb_refl. repeat split; reflexivity.
Qed.

Lemma unlock_persists_until_lock_witness :
  unlocked (gateInit (submit {| pw := "changeme"; gateError := None; unlocked := false |}
                        {| items := ∅; mode := Working |}).2) = true.
Proof.
  pose proof (unlock_persists_until_lock
                {| pw := "changeme"; gateError := None; unlocked := false |}
                {| items := ∅; mode := Working |} eq_refl eq_refl) as H.
  cbv beta iota zeta in H.
  destruct (submit _ _) as [g1 st1]. destruct (lock g1 st1) as [g2 st2].
  destruct H as (_ & _ & H & _). exact H.
Defined.

(** X21. A wrong password never unlocks anything: the gate keeps its lock
    state and shows "Incorrect password", storage is left as it was, and a
    later mount starts as it would have before. *)
Theorem wrong_password_changes_nothing (g : Gate) (st : Storage) :
  pw g ≠ APP_PASSWORD ->
  let '(g1, st1) := submit g st in
  unlocked g1 = unlocked g /\
  gateError g1 = Some "Incorrect password"%string /\
  st1 = st /\
  gateInit st1 = gateInit st.
Proof.
  intros Hpw. unfold submit.
  destruct (String.eqb_spec (pw g) APP_PASSWORD) as [He|_]; [contradiction|].
  repeat split; reflexivity.
Qed.

Lemma wrong_password_changes_nothing_witness :
  (submit {| pw := "letmein"; gateError := None; unlocked := false |}
     {| items := ∅; mode := Working |}).2 = {| items := ∅; mode := Working |}.
Proof.
  pose proof (wrong_password_changes_nothing
                {| pw := "letmein"; gateError := None; unlocked := false |}
                {| items := ∅; mode := Working |}) as H.
  destruct (submit _ _) as [g1 st1].
  destruct H as (_ & _ & H & _); [discriminate|exact H].
Defined.

(** ** The localStorage-only starter *)


(** X23. When storage refuses every access, the right password still
    unlocks the running gate, but nothing is stored: a later mount starts
    locked, and [lock] leaves storage as it was. *)
Theorem denied_storage_is_tolerated (g : Gate) (st : Storage) :
  mode st = Denied ->
  pw g = APP_PASSWORD ->
  let '(g1, st1) := submit g st in
  let '(g2, st2) := lock g1 st1 in
  unlocked g1 = true /\ st1 = st /\
  unlocked (gateInit st1) = false /\
  unlocked g2 = false /\ st2 = st.
Proof.
  destruct st as [its md]. destruct g as [pw0 err0 ul0].
  cbn [mode pw]. intros -> ->.
  unfold submit, lock, gateInit, getItem, setItem, removeItem.
  cbn [pw mode items]. rewrite String.eqb_refl.
  repeat split; reflexivity.
Qed.

Lemma denied_storage_is_tolerated_witness :
  unlocked (submit {| pw := "changeme"; gateError := None; unlocked := false |}
              {| items := ∅; mode := Denied |}).1 = true.
Proof.
  pose proof (denied_storage_is_tolerated
                {| pw := "changeme"; gateError := None; unlocked := false |}
                {| items := ∅; mode := Denied |} eq_refl eq_refl) as H.
  cbv beta iota zeta in H.
  destruct (submit _ _) as [g1 st1]. destruct (lock g1 st1) as [g2 st2].
  destruct H as (H & _). exact H.
Defined.

(** ** Keys of the grid cells *)

